(** * The request handlers of the AI Resume Analyzer Flask API

    A shallow embedding of [resume-analyzer-flask/app/main.py]: the two
    routes [read_root] (GET /) and [analyze_resume_and_jd_flask]
    (POST /analyze/), the part of [werkzeug.utils.secure_filename] the
    second one relies on, and the properties of the HTTP contract.

    Conventions.
    - A Python [str] is a list of Unicode code points ([pystr]).
    - The services module ([process_pdf_bytes], [perform_resume_analysis],
      [calculate_resume_jd_similarity], [initialization_error]) and the
      clock [time.time] are outside the file: they are an interface
      ([Services]) whose operations thread an abstract [World].
    - A call of a service may return a value or raise; the handler's
      [try]/[except] blocks are modelled on that.
    - A Python [float] is a binary64 number of IEEE 754: Rocq's
      primitive [float], with its own subtraction and comparisons.
    - The [print] calls (logging to stdout) are left out. *)

From Stdlib Require Import ZArith NArith Floats.
From Stdlib.Strings Require Import String Ascii Byte.
From stdpp Require Import base option list gmap strings.

Open Scope N_scope.

(** ** Python strings *)

Module Py.

Definition pystr := list N.

(** A string literal of the source. *)
Definition py (s : string) : pystr :=
  (λ a : ascii, N_of_ascii a) <$> list_ascii_of_string s.

Definition bytes := list byte.

(** [bool(s)] for a value that is a [str] or [None]. *)
Definition truthy (o : option pystr) : bool :=
  match o with
  | Some (_ :: _) => true
  | _ => false
  end.

(** The value of an attribute known to hold a [str]. *)
Definition str_of (o : option pystr) : pystr := default [] o.

Definition is_upper (c : N) : bool := (65 <=? c) && (c <=? 90).

(** [str.lower] on ASCII letters; code points above 127 are left as
    they are (the handler lowers sanitized names only, and those are
    ASCII: see [secure_filename_safe] and [is_safe_ascii]). *)
Definition lower (s : pystr) : pystr :=
  (λ c, if is_upper c then c + 32 else c) <$> s.

(** [s.endswith(suffix)] *)
Definition endswith (s suffix : pystr) : bool :=
  bool_decide (drop (length s - length suffix)%nat s = suffix).

(** [s.startswith(prefix)] *)
Definition startswith (s prefix : pystr) : bool :=
  bool_decide (take (length prefix) s = prefix).

(** [sub in s] *)
Fixpoint contains (sub s : pystr) : bool :=
  startswith s sub ||
  match s with
  | [] => false
  | _ :: s' => contains sub s'
  end.

(** The ASCII code points on which [str.split()] splits:
    tab, LF, VT, FF, CR, FS, GS, RS, US and the space. *)
Definition isspace (c : N) : bool :=
  ((9 <=? c) && (c <=? 13)) || ((28 <=? c) && (c <=? 32)).

Fixpoint split_from (word : pystr) (s : pystr) : list pystr :=
  match s with
  | [] => match word with [] => [] | _ => [word] end
  | c :: s' =>
      if isspace c
      then match word with
           | [] => split_from [] s'
           | _ => word :: split_from [] s'
           end
      else split_from (word ++ [c]) s'
  end.

(** [s.split()] *)
Definition split (s : pystr) : list pystr := split_from [] s.

(** [sep.join(words)] *)
Fixpoint join (sep : pystr) (words : list pystr) : pystr :=
  match words with
  | [] => []
  | [w] => w
  | w :: ws => w ++ sep ++ join sep ws
  end.

(** [s.replace(old, new)] for one-character [old] and [new]. *)
Definition replace (old new : N) (s : pystr) : pystr :=
  (λ c, if bool_decide (c = old) then new else c) <$> s.

Fixpoint lstrip (chars : pystr) (s : pystr) : pystr :=
  match s with
  | [] => []
  | c :: s' => if bool_decide (c ∈ chars) then lstrip chars s' else s
  end.

Definition rstrip (chars : pystr) (s : pystr) : pystr :=
  reverse (lstrip chars (reverse s)).

(** [s.strip(chars)] *)
Definition strip (chars : pystr) (s : pystr) : pystr :=
  rstrip chars (lstrip chars s).

End Py.
Import Py.

Global Arguments py : simpl never.
Global Arguments lower : simpl never.
Global Arguments endswith : simpl never.
Global Arguments contains : simpl never.

(** ** werkzeug.utils.secure_filename

    The function as werkzeug defines it, on a POSIX host ([os.sep] is
    the slash, there is no [os.path.altsep], and the renaming of Windows
    device names does not apply). *)

Module Werkzeug.

(** The Unicode database: the full compatibility decomposition of a
    code point above 127.  ASCII code points decompose to themselves,
    and the canonical reordering that ends NFKD moves combining marks
    only, none of which is ASCII. *)
Class UnicodeData := decomposition : N → pystr.

Section SecureFilename.

Context {U : UnicodeData}.

Definition is_ascii (c : N) : bool := c <? 128.

(** [unicodedata.normalize("NFKD", s).encode("ascii", "ignore").decode("ascii")] *)
Definition nfkd_ascii (s : pystr) : pystr :=
  c ← s; if is_ascii c then [c] else filter (λ d, is_ascii d = true) (decomposition c).

(** The complement of [_filename_ascii_strip_re], [[^A-Za-z0-9_.-]]. *)
Definition is_safe (c : N) : bool :=
  ((65 <=? c) && (c <=? 90)) || ((97 <=? c) && (c <=? 122)) ||
  ((48 <=? c) && (c <=? 57)) ||
  bool_decide (c = 95) || bool_decide (c = 46) || bool_decide (c = 45).

Definition secure_filename (filename : pystr) : pystr :=
  let filename := nfkd_ascii filename in
  let filename := replace 47 32 filename in
  strip (py "._")
    (filter (λ c, is_safe c = true) (join (py "_") (split filename))).

End SecureFilename.

End Werkzeug.
Import Werkzeug.

Global Arguments secure_filename : simpl never.

(** ** Python floats

    Binary64 numbers, by their specification in [SpecFloat]: what it
    takes to say that a result of rounding is at least zero. *)

Module Float64.




End Float64.
Import Float64.

(** ** Exceptions

    What the handler's [except] clauses can tell apart: [ValueError]
    and its subclasses, the other subclasses of [Exception], and the
    exceptions that derive from [BaseException] only
    ([KeyboardInterrupt], [SystemExit], [GeneratorExit]). *)

Inductive exn_class := ValueError | OtherException | BaseExceptionOnly.

Record exn := Exn { exn_class_of : exn_class; exn_str : pystr }.

Global Instance exn_class_eq_dec : EqDecision exn_class.
Proof. solve_decision. Defined.

(** [isinstance(e, ValueError)] *)
Definition is_ValueError (e : exn) : bool :=
  bool_decide (exn_class_of e = ValueError).

(** [isinstance(e, Exception)] *)
Definition is_Exception (e : exn) : bool :=
  negb (bool_decide (exn_class_of e = BaseExceptionOnly)).

(** ** The services module and the clock

    [app/services.py] is imported, not defined, by [main.py].  Its
    three functions may read and change state of their own and may
    raise; [time.time] reads the system clock.  [World] is all of that
    state. *)

Class Services := {
  World : Type;
  ParsedDocs : Type;
  AnalysisResult : Type;
  SimilarityResult : Type;
  (** [None], or the message captured when the services were loaded. *)
  initialization_error : option pystr;
  process_pdf_bytes : bytes → pystr → World → (exn + ParsedDocs) * World;
  perform_resume_analysis : ParsedDocs → World → (exn + AnalysisResult) * World;
  calculate_resume_jd_similarity :
    ParsedDocs → ParsedDocs → World → (exn + SimilarityResult) * World;
  (** [time.time()]: the reading of the system clock, in seconds, a
      Python [float]. *)
  time_time : World → float * World;
}.

(** ** The Flask application *)

Module Flask.

(** An entry of [request.files]: a werkzeug [FileStorage].  [stream]
    is what [read()] does on it: the bytes, or the exception raised. *)
Record FileStorage := {
  filename : option pystr;
  stream : exn + bytes;
}.

Record Request := {
  method : string;
  path : string;
  headers : list (pystr * pystr);
  data : bytes;
  files : gmap string FileStorage;
}.

Section App.

Context {U : UnicodeData} {S : Services}.

(** A call made to the services module. *)
Inductive Call :=
| ParsePdf (pdf_bytes : bytes) (name : pystr)
| Analyze (docs : ParsedDocs)
| CompareSimilarity (resume_docs jd_docs : ParsedDocs).

(** The values of a JSON body: strings and numbers, and the JSON forms
    ([model_dump]) of what the analysis and the comparison returned. *)
Inductive json_value :=
| JString (s : pystr)
| JNumber (x : float)
| JAnalysis (a : AnalysisResult)
| JSimilarity (s : SimilarityResult).

(** What a view function hands back to Flask: [jsonify(body), status],
    or the error page of [abort(status, description=...)]. *)
Inductive Response :=
| JsonResponse (body : gmap string json_value) (status : Z)
| ErrorResponse (status : Z) (description : pystr).

(** *** The handler monad

    State: the world outside and the log of service calls.  A
    statement yields a value, raises, or leaves the view function
    with a response ([return] and [abort]; [abort] raises werkzeug's
    [HTTPException], which Flask turns into the error page, and no
    [abort] of the handler sits inside a [try] body). *)

Record State := { world : World; calls : list Call }.

Inductive result (A : Type) :=
| Value (a : A)
| Raise (e : exn)
| Return (r : Response).
Global Arguments Value {A} a.
Global Arguments Raise {A} e.
Global Arguments Return {A} r.

Definition M (A : Type) : Type := State → result A * State.

Global Instance M_ret : MRet M := λ A a st, (Value a, st).

Global Instance M_bind : MBind M := λ A B f m st,
  match m st with
  | (Value a, st') => f a st'
  | (Raise e, st') => (Raise e, st')
  | (Return r, st') => (Return r, st')
  end.

Definition raise {A} (e : exn) : M A := λ st, (Raise e, st).

Definition return_ {A} (r : Response) : M A := λ st, (Return r, st).

Definition abort {A} (status : Z) (description : pystr) : M A :=
  return_ (ErrorResponse status description).

(** [if cond: stmt] *)
Definition when (cond : bool) (stmt : M ()) : M () :=
  if cond then stmt else mret ().

(** [try: body / except ...: handler]: [handler e] is [None] when no
    [except] clause matches [e]. *)
Definition try_except {A} (body : M A) (handler : exn → option (M A)) : M A :=
  λ st,
    match body st with
    | (Raise e, st') =>
        match handler e with
        | Some h => h st'
        | None => (Raise e, st')
        end
    | r => r
    end.

(** A call of a service: logged, then answered by the world. *)
Definition call {A} (c : Call) (f : World → (exn + A) * World) : M A :=
  λ st,
    let '(r, w) := f (world st) in
    let st' := {| world := w; calls := calls st ++ [c] |} in
    match r with
    | inl e => (Raise e, st')
    | inr a => (Value a, st')
    end.

Definition time : M float :=
  λ st,
    let '(t, w) := time_time (world st) in
    (Value t, {| world := w; calls := calls st |}).

(** [file.read()] *)
Definition read (file : FileStorage) : M bytes :=
  match stream file with
  | inl e => raise e
  | inr b => mret b
  end.

(** [request.files[key]]: werkzeug's [MultiDict] raises
    [BadRequestKeyError], an [HTTPException] of status 400, on a
    missing key. *)
Definition getitem (fs : gmap string FileStorage) (key : string) : M FileStorage :=
  match fs !! key with
  | Some f => mret f
  | None =>
      abort 400
        (py "The browser (or proxy) sent a request that this server could not understand.")
  end.

(** *** The response schema *)

(** Modelled from the spec: [AnalysisAndSimilarityResponse] of
    [app/schemas.py], which is not part of the sources; the spec
    gives the envelope as
    [{ resume_analysis, similarity_results, processing_time_seconds }]. *)
Record AnalysisAndSimilarityResponse := {
  resume_analysis : AnalysisResult;
  similarity_results : SimilarityResult;
  processing_time_seconds : float;
}.

(** Modelled from the spec: [model_dump(mode='json')] (and [dict()],
    the fallback for Pydantic 1) of the envelope, one key per field. *)
Definition model_dump (r : AnalysisAndSimilarityResponse) : gmap string json_value :=
  {[ "resume_analysis" := JAnalysis (resume_analysis r);
     "similarity_results" := JSimilarity (similarity_results r);
     "processing_time_seconds" := JNumber (processing_time_seconds r) ]}.

(** *** The view functions *)

(** [@app.route('/', methods=['GET'])] *)
Definition read_root : M Response :=
  return_ (JsonResponse
             {[ "status" := JString (py "AI Resume Analyzer Flask API is running!") ]}
             200).

(** [@app.route('/analyze/', methods=['POST'])] *)
Definition analyze_resume_and_jd_flask (request : Request) : M Response :=
  start_time ← time;
  (* Initial checks *)
  when (truthy initialization_error)
    (abort 503
       (py "API service unavailable due to initialization failure: "
          ++ str_of initialization_error));;
  (* File handling and validation *)
  when (bool_decide (files request !! "resume_file" = None)
        || bool_decide (files request !! "jd_file" = None))
    (abort 400 (py "Missing 'resume_file' or 'jd_file' in the request."));;
  resume_file ← getitem (files request) "resume_file";
  jd_file ← getitem (files request) "jd_file";
  when (negb (truthy (filename resume_file)) || negb (truthy (filename jd_file)))
    (abort 400 (py "Uploaded files must have filenames."));;
  let resume_filename := secure_filename (str_of (filename resume_file)) in
  let jd_filename := secure_filename (str_of (filename jd_file)) in
  when (negb (endswith (lower resume_filename) (py ".pdf"))
        || negb (endswith (lower jd_filename) (py ".pdf")))
    (abort 400 (py "Invalid file type. Please upload PDF files only."));;
  (* Read file bytes *)
  '(resume_bytes, jd_bytes) ←
    try_except
      (resume_bytes ← read resume_file;
       jd_bytes ← read jd_file;
       mret (resume_bytes, jd_bytes))
      (λ e,
        if is_Exception e
        then Some (abort 400 (py "Failed to read file content: " ++ exn_str e ++ py "."))
        else None);
  (* Core processing via services *)
  '(analysis_result, similarity_result) ←
    try_except
      (resume_docs ← call (ParsePdf resume_bytes resume_filename)
                          (process_pdf_bytes resume_bytes resume_filename);
       jd_docs ← call (ParsePdf jd_bytes jd_filename)
                      (process_pdf_bytes jd_bytes jd_filename);
       analysis_result ← call (Analyze resume_docs)
                              (perform_resume_analysis resume_docs);
       similarity_result ← call (CompareSimilarity resume_docs jd_docs)
                                (calculate_resume_jd_similarity resume_docs jd_docs);
       mret (analysis_result, similarity_result))
      (λ e,
        if is_ValueError e
        then Some (return_ (JsonResponse
                              {[ "error" := JString (py "Processing Error");
                                 "detail" := JString (exn_str e) ]}
                              422))
        else if is_Exception e
        then Some (return_ (JsonResponse
                              {[ "error" := JString (py "Internal Server Error");
                                 "detail" := JString (exn_str e) ]}
                              500))
        else None);
  (* Format and return the success response *)
  end_time ← time;
  let processing_time := (end_time - start_time)%float in
  let response_data :=
    {| resume_analysis := analysis_result;
       similarity_results := similarity_result;
       processing_time_seconds := processing_time |} in
  return_ (JsonResponse (model_dump response_data) 200).

(** *** Running a view function *)

(** What the client of one request sees: a response, or the
    exception that left the view function. *)
Inductive Outcome :=
| Responded (r : Response)
| Unhandled (e : exn).

Definition run (view : M Response) (w : World) : Outcome * State :=
  match view {| world := w; calls := [] |} with
  | (Value r, st) => (Responded r, st)
  | (Return r, st) => (Responded r, st)
  | (Raise e, st) => (Unhandled e, st)
  end.

(** The routes registered by the two [@app.route] decorators; [None]
    for a method and path that match neither (Flask's own answers
    are not modelled). *)
Definition route (request : Request) : option (M Response) :=
  if bool_decide (path request = "/") && bool_decide (method request = "GET")
  then Some read_root
  else if bool_decide (path request = "/analyze/") && bool_decide (method request = "POST")
  then Some (analyze_resume_and_jd_flask request)
  else None.

(** The outcome of a request that has a route, with the calls made
    to the services on the way and the world it leaves. *)
Definition serve (request : Request) (w : World) : option (Outcome * State) :=
  view ← route request; Some (run view w).

End App.

End Flask.
Import Flask.

(** ** A small services module to run the handlers on

    The world is a script of clock readings.  A parsed document is the
    bytes of the file; the first byte of a file decides whether a
    service raises, and what. *)

Module Demo.

Definition ticking (w : list float) : float * list float :=
  match w with
  | [] => (0%float, [])
  | t :: w' => (t, w')
  end.

(** [a], unless the first byte of [b] asks for an exception: [trigger]
    for a [ValueError], 0xff for another [Exception], 0xfe for an
    exception outside [Exception]. *)
Definition answer {A} (trigger : byte) (what : string) (a : A) (b : bytes)
    (w : list float) : (exn + A) * list float :=
  match b with
  | c :: _ =>
      if Byte.eqb c trigger
      then (inl (Exn ValueError (py what)), w)
      else if Byte.eqb c xff
      then (inl (Exn OtherException (py "backend offline")), w)
      else if Byte.eqb c xfe
      then (inl (Exn BaseExceptionOnly (py "interrupted")), w)
      else (inr a, w)
  | [] => (inr a, w)
  end.

Definition services (init : option pystr) : Services := {|
  World := list float;
  ParsedDocs := bytes;
  AnalysisResult := nat;
  SimilarityResult := nat;
  initialization_error := init;
  process_pdf_bytes b name w :=
    match b with
    | [] => (inl (Exn ValueError (py "empty PDF")), w)
    | c :: _ =>
        if Byte.eqb c x00
        then (inl (Exn ValueError (py "not a PDF")), w)
        else (inr b, w)
    end;
  perform_resume_analysis d w :=
    answer x01 "I/O operation on closed file" (length d) d w;
  calculate_resume_jd_similarity d1 d2 w :=
    answer x02 "nothing to compare" (length d1 + length d2)%nat d2 w;
  time_time := ticking;
|}.

(** No code point above 127 has an ASCII part. *)
Definition unicode : UnicodeData := λ _, [].

Definition ready : Services := services None.

Definition failed : Services := services (Some (py "GOOGLE_API_KEY is not set")).

Definition upload (name : string) (content : bytes) : FileStorage :=
  {| filename := Some (py name); stream := inr content |}.

Definition broken (name : string) (e : exn) : FileStorage :=
  {| filename := Some (py name); stream := inl e |}.

Definition post (fs : gmap string FileStorage) : Request :=
  {| method := "POST"; path := "/analyze/"; headers := []; data := []; files := fs |}.

Definition get : Request :=
  {| method := "GET"; path := "/";
     headers := [(py "Accept", py "text/html")];
     data := [x7b; x7d];
     files := {[ "resume_file" := upload "cv.pdf" [] ]} |}.

Definition pdf : bytes := [x25; x50; x44; x46].

Definition resume : FileStorage := upload "RESUME.PDF" pdf.

Definition jd : FileStorage := upload "jobs/jd.pdf" pdf.

Definition good : Request :=
  post {[ "resume_file" := resume; "jd_file" := jd ]}.

(** A job description that is not a PDF: the second call raises a
    [ValueError]. *)
Definition garbage : FileStorage := upload "jd.pdf" [x00].

Definition bad_jd : Request :=
  post {[ "resume_file" := resume; "jd_file" := garbage ]}.

(** A resume on which the analysis raises an unexpected exception. *)
Definition unlucky : FileStorage := upload "cv.pdf" [xff].

Definition bad_analysis : Request :=
  post {[ "resume_file" := unlucky; "jd_file" := jd ]}.

Definition no_jd : Request := post {[ "resume_file" := resume ]}.

Definition docx : FileStorage := upload "resume.docx" pdf.

Definition dot_pdf : FileStorage := upload ".pdf" pdf.

Definition hidden : Request :=
  post {[ "resume_file" := dot_pdf; "jd_file" := jd ]}.

Definition closed_file : exn := Exn ValueError (py "I/O operation on closed file").

Definition unreadable : FileStorage := broken "cv.pdf" closed_file.

Definition bad_read : Request :=
  post {[ "resume_file" := unreadable; "jd_file" := jd ]}.

(** A resume that parses to documents on which Analyze raises
    [closed_file]. *)
Definition blank : FileStorage := upload "cv.pdf" [x01].

Definition bad_resume : Request :=
  post {[ "resume_file" := blank; "jd_file" := jd ]}.

(** A job description on which CompareSimilarity is interrupted: the
    exception is not an instance of [Exception]. *)
Definition interrupt : exn := Exn BaseExceptionOnly (py "interrupted").

Definition interrupting : FileStorage := upload "jd.pdf" [xfe].

Definition interrupted : Request :=
  post {[ "resume_file" := resume; "jd_file" := interrupting ]}.

Definition interrupted_read : Request :=
  post {[ "resume_file" := resume; "jd_file" := broken "jd.pdf" interrupt ]}.

(** [good], under names that sanitize to the same. *)
Definition pathful : Request :=
  post {[ "resume_file" := upload "./RESUME.PDF" pdf;
          "jd_file" := upload "jobs jd.pdf" pdf ]}.

(** [good], with a header, a raw body and a third upload. *)
Definition noisy : Request :=
  {| method := "POST"; path := "/analyze/";
     headers := [(py "X-Trace", py "1")];
     data := [x7b; x7d];
     files := {[ "resume_file" := resume; "jd_file" := jd;
                 "cover_letter" := upload "letter.txt" [x41] ]} |}.

End Demo.

(** ** The vocabulary of the contract *)

Section Contract.

Context {U : UnicodeData} {S : Services}.

(** The file name the handler works with. *)
Definition sanitized (f : FileStorage) : pystr :=
  secure_filename (str_of (filename f)).

(** The extension test of the handler, on a sanitized name. *)
Definition is_pdf (name : pystr) : bool := endswith (lower name) (py ".pdf").

(** A POST to /analyze/ that gets past the readiness check, the
    presence check, the file name check and the extension check. *)
Record passes_filename_validation
    (request : Request) (resume_file jd_file : FileStorage) : Prop := {
  pv_method : method request = "POST";
  pv_path : path request = "/analyze/";
  pv_ready : truthy initialization_error = false;
  pv_resume : files request !! "resume_file" = Some resume_file;
  pv_jd : files request !! "jd_file" = Some jd_file;
  pv_resume_name : truthy (filename resume_file) = true;
  pv_jd_name : truthy (filename jd_file) = true;
  pv_resume_pdf : is_pdf (sanitized resume_file) = true;
  pv_jd_pdf : is_pdf (sanitized jd_file) = true;
}.

(** ... and whose two files are read without an exception. *)
Record passes_validation
    (request : Request) (resume_file jd_file : FileStorage)
    (resume_bytes jd_bytes : bytes) : Prop := {
  pv_names :> passes_filename_validation request resume_file jd_file;
  pv_resume_read : stream resume_file = inr resume_bytes;
  pv_jd_read : stream jd_file = inr jd_bytes;
}.

(** The answer to a request refused before any service is called:
    the error page, an empty log, and a world in which only the clock
    has been read. *)
Definition refused (status : Z) (description : pystr) (w : World)
    : option (Outcome * State) :=
  Some (Responded (ErrorResponse status description),
        {| world := (time_time w).2; calls := [] |}).

(** The pipeline as the specification orders it, started in world [w]:
    ParsePdf on the resume, ParsePdf on the job description, Analyze,
    CompareSimilarity, each in the world the one before left.
    [pipeline_raises .. e cs w']: the first service to raise raises
    [e], after the calls [cs], leaving [w']. *)
Inductive pipeline_raises (rb : bytes) (rn : pystr) (jb : bytes) (jn : pystr)
    (w : World) (e : exn) : list Call → World → Prop :=
| raises_parse_resume w' :
    process_pdf_bytes rb rn w = (inl e, w') →
    pipeline_raises rb rn jb jn w e [ParsePdf rb rn] w'
| raises_parse_jd d1 w1 w' :
    process_pdf_bytes rb rn w = (inr d1, w1) →
    process_pdf_bytes jb jn w1 = (inl e, w') →
    pipeline_raises rb rn jb jn w e [ParsePdf rb rn; ParsePdf jb jn] w'
| raises_analyze d1 w1 d2 w2 w' :
    process_pdf_bytes rb rn w = (inr d1, w1) →
    process_pdf_bytes jb jn w1 = (inr d2, w2) →
    perform_resume_analysis d1 w2 = (inl e, w') →
    pipeline_raises rb rn jb jn w e
      [ParsePdf rb rn; ParsePdf jb jn; Analyze d1] w'
| raises_compare d1 w1 d2 w2 a w3 w' :
    process_pdf_bytes rb rn w = (inr d1, w1) →
    process_pdf_bytes jb jn w1 = (inr d2, w2) →
    perform_resume_analysis d1 w2 = (inr a, w3) →
    calculate_resume_jd_similarity d1 d2 w3 = (inl e, w') →
    pipeline_raises rb rn jb jn w e
      [ParsePdf rb rn; ParsePdf jb jn; Analyze d1; CompareSimilarity d1 d2] w'.

(** [pipeline_returns .. a s cs w']: all four calls return, with the
    analysis [a] and the similarity [s]. *)
Inductive pipeline_returns (rb : bytes) (rn : pystr) (jb : bytes) (jn : pystr)
    (w : World) (a : AnalysisResult) (s : SimilarityResult)
    : list Call → World → Prop :=
| returns_all d1 w1 d2 w2 w3 w' :
    process_pdf_bytes rb rn w = (inr d1, w1) →
    process_pdf_bytes jb jn w1 = (inr d2, w2) →
    perform_resume_analysis d1 w2 = (inr a, w3) →
    calculate_resume_jd_similarity d1 d2 w3 = (inr s, w') →
    pipeline_returns rb rn jb jn w a s
      [ParsePdf rb rn; ParsePdf jb jn; Analyze d1; CompareSimilarity d1 d2] w'.

(** The error mapping of the pipeline (section 4.4 of the
    specification), by exception class. *)
Definition pipeline_error (e : exn) : Outcome :=
  match exn_class_of e with
  | ValueError =>
      Responded (JsonResponse
                   {[ "error" := JString (py "Processing Error");
                      "detail" := JString (exn_str e) ]} 422)
  | OtherException =>
      Responded (JsonResponse
                   {[ "error" := JString (py "Internal Server Error");
                      "detail" := JString (exn_str e) ]} 500)
  | BaseExceptionOnly => Unhandled e
  end.

(** An outcome with nothing of the pipeline's results in it: not a
    200, and a body, if any, of strings only. *)
Definition carries_no_result (o : Outcome) : Prop :=
  match o with
  | Responded (JsonResponse body status) =>
      status ≠ 200%Z ∧ ∀ k v, body !! k = Some v → ∃ s, v = JString s
  | Responded (ErrorResponse status _) => status ≠ 200%Z
  | Unhandled _ => True
  end.

(** The first exception raised by the two [read()] calls, the one of
    the resume first. *)
Definition read_raises (resume_file jd_file : FileStorage) (e : exn) : Prop :=
  stream resume_file = inl e ∨
  (∃ resume_bytes, stream resume_file = inr resume_bytes) ∧ stream jd_file = inl e.

(** What the [except] clause around the reads answers. *)
Definition read_error (e : exn) : Outcome :=
  if is_Exception e
  then Responded (ErrorResponse 400
                    (py "Failed to read file content: " ++ exn_str e ++ py "."))
  else Unhandled e.

Definition invalid_file_type : pystr :=
  py "Invalid file type. Please upload PDF files only.".

(** The request is not turned down by the extension check. *)
Definition accepted_as_pdf (request : Request) (w : World) : Prop :=
  ∀ st, serve request w ≠ Some (Responded (ErrorResponse 400 invalid_file_type), st).

(** The state left by a request that called no service. *)
Definition untouched (w : World) : State :=
  {| world := (time_time w).2; calls := [] |}.

(** The runs of [analyze_resume_and_jd_flask], check by check: what a
    request started in world [w] is answered, and the state it leaves. *)
Inductive analyzed (request : Request) (w : World) : Outcome → State → Prop :=
| analyzed_unavailable :
    truthy initialization_error = true →
    analyzed request w
      (Responded
         (ErrorResponse 503
            (py "API service unavailable due to initialization failure: "
               ++ str_of initialization_error)))
      (untouched w)
| analyzed_missing :
    truthy initialization_error = false →
    files request !! "resume_file" = None ∨ files request !! "jd_file" = None →
    analyzed request w
      (Responded
         (ErrorResponse 400 (py "Missing 'resume_file' or 'jd_file' in the request.")))
      (untouched w)
| analyzed_unnamed rf jf :
    truthy initialization_error = false →
    files request !! "resume_file" = Some rf →
    files request !! "jd_file" = Some jf →
    truthy (filename rf) = false ∨ truthy (filename jf) = false →
    analyzed request w
      (Responded (ErrorResponse 400 (py "Uploaded files must have filenames.")))
      (untouched w)
| analyzed_not_pdf rf jf :
    truthy initialization_error = false →
    files request !! "resume_file" = Some rf →
    files request !! "jd_file" = Some jf →
    truthy (filename rf) = true → truthy (filename jf) = true →
    is_pdf (sanitized rf) = false ∨ is_pdf (sanitized jf) = false →
    analyzed request w
      (Responded (ErrorResponse 400 invalid_file_type))
      (untouched w)
| analyzed_unread rf jf e :
    passes_filename_validation request rf jf →
    read_raises rf jf e →
    analyzed request w (read_error e) (untouched w)
| analyzed_failed rf jf rb jb e cs w' :
    passes_validation request rf jf rb jb →
    pipeline_raises rb (sanitized rf) jb (sanitized jf) (time_time w).2 e cs w' →
    analyzed request w (pipeline_error e) {| world := w'; calls := cs |}
| analyzed_succeeded rf jf rb jb a s cs w' :
    passes_validation request rf jf rb jb →
    pipeline_returns rb (sanitized rf) jb (sanitized jf) (time_time w).2 a s cs w' →
    analyzed request w
      (Responded
         (JsonResponse
            (model_dump
               {| resume_analysis := a;
                  similarity_results := s;
                  processing_time_seconds := ((time_time w').1 - (time_time w).1)%float |})
            200))
      {| world := (time_time w').2; calls := cs |}.

(** The status line of an outcome, if there is a response. *)
Definition status_of (o : Outcome) : option Z :=
  match o with
  | Responded (JsonResponse _ status) => Some status
  | Responded (ErrorResponse status _) => Some status
  | Unhandled _ => None
  end.

(** A name fit to be handed to the services: safe characters only, a
    PDF extension in some case, something before the extension, and no
    dot in front. *)
Definition safe_pdf_name (name : pystr) : Prop :=
  (∀ c, c ∈ name → is_safe c = true) ∧
  is_pdf name = true ∧
  head name ≠ Some 46 ∧
  (4 < length name)%nat.

End Contract.

(** ** Subtracting two readings of the clock *)

Section Floats.

Local Open Scope Z_scope.



















End Floats.

(** ** Sanitized names *)

Section Strings.

Context {U : UnicodeData}.

Lemma endswith_suffix (s t : pystr) : endswith s t = true ↔ t `suffix_of` s.
Proof.
  unfold endswith. rewrite bool_decide_eq_true. split.
  - intros <-. apply suffix_drop.
  - intros [k ->]. rewrite length_app.
    replace (length k + length t - length t)%nat with (length k) by lia.
    by rewrite drop_app_length.
Qed.

Lemma lstrip_elem chars (s : pystr) c : c ∈ lstrip chars s → c ∈ s.
Proof.
  induction s as [|d s IH]; cbn; [done|].
  case_bool_decide; [|done]. intros Hc. right. by apply IH.
Qed.

Lemma strip_elem chars (s : pystr) c : c ∈ strip chars s → c ∈ s.
Proof.
  unfold strip, rstrip. rewrite elem_of_reverse.
  intros Hc%lstrip_elem. rewrite elem_of_reverse in Hc.
  by apply lstrip_elem in Hc.
Qed.

(** A sanitized name is made of ASCII letters, digits, [_], [.] and
    [-] only. *)
Lemma secure_filename_safe (name : pystr) c :
  c ∈ secure_filename name → is_safe c = true.
Proof.
  unfold secure_filename. intros Hc%strip_elem.
  by apply list_elem_of_filter in Hc as [Hc _].
Qed.

Lemma is_safe_ascii c : is_safe c = true → c < 128.
Proof.
  unfold is_safe.
  rewrite !orb_true_iff, !andb_true_iff, !bool_decide_eq_true, !N.leb_le.
  lia.
Qed.

Lemma lstrip_suffix chars (s : pystr) : lstrip chars s `suffix_of` s.
Proof.
  induction s as [|d s IH]; cbn; [done|].
  case_bool_decide; [|done]. by apply suffix_cons_r.
Qed.

Lemma rstrip_prefix chars (s : pystr) : rstrip chars s `prefix_of` s.
Proof.
  apply prefix_suffix_reverse. unfold rstrip. rewrite reverse_involutive.
  apply lstrip_suffix.
Qed.

Lemma lstrip_head chars (s : pystr) c : head (lstrip chars s) = Some c → c ∉ chars.
Proof.
  induction s as [|d s IH]; cbn; [done|].
  case_bool_decide; [done|]. cbn. congruence.
Qed.

(** No sanitized name starts with a dot: a name that is only an
    extension loses it. *)
Lemma secure_filename_no_leading_dot (name rest : pystr) :
  secure_filename name ≠ 46 :: rest.
Proof.
  unfold secure_filename, strip. set (s := filter _ _). clearbody s.
  intros Heq.
  destruct (rstrip_prefix (py "._") (lstrip (py "._") s)) as [k Hk].
  rewrite Heq in Hk.
  apply (lstrip_head (py "._") s 46); [by rewrite Hk|].
  change (py "._") with [46; 95]. left.
Qed.

(** So no sanitized name is the bare extension ".pdf", in any case. *)
Lemma secure_filename_not_bare_extension (name : pystr) :
  lower (secure_filename name) ≠ py ".pdf".
Proof.
  destruct (secure_filename name) as [|c rest] eqn:E; [done|].
  intros Heq. apply (secure_filename_no_leading_dot name rest).
  rewrite E. f_equal.
  apply (f_equal head) in Heq. unfold lower in Heq. cbn in Heq.
  assert (Hsafe : is_safe c = true)
    by (apply (secure_filename_safe name); rewrite E; left).
  change (head (py ".pdf")) with (Some 46) in Heq.
  destruct (is_upper c) eqn:Hup; [|congruence].
  exfalso. injection Heq as Heq.
  unfold is_upper in Hup. apply andb_true_iff in Hup as [?%N.leb_le _]. lia.
Qed.

Lemma lower_app (a b : pystr) : lower (a ++ b) = lower a ++ lower b.
Proof. apply fmap_app. Qed.

Lemma length_lower (s : pystr) : length (lower s) = length s.
Proof. apply length_fmap. Qed.

(** The extension check holds exactly of the names that end in
    characters which, lowered, read ".pdf". *)
Lemma extension_check_any_case (name : pystr) :
  is_pdf name = true ↔ ∃ stem ext, name = stem ++ ext ∧ lower ext = py ".pdf".
Proof.
  unfold is_pdf. split.
  - unfold endswith. rewrite bool_decide_eq_true, length_lower. intros Hdrop.
    exists (take (length name - length (py ".pdf")) name),
           (drop (length name - length (py ".pdf")) name).
    split; [by rewrite take_drop|].
    unfold lower in *. by rewrite fmap_drop.
  - intros (stem & ext & -> & Hext).
    apply endswith_suffix. rewrite lower_app, Hext. by eexists.
Qed.

(** The strings that [lower] sends to ".pdf": a dot, then each of the
    three letters in either case. *)
Lemma lower_is_pdf_extension (ext : pystr) :
  lower ext = py ".pdf" ↔
  ∃ p d f, ext = [46; p; d; f] ∧
           (p = 112 ∨ p = 80) ∧ (d = 100 ∨ d = 68) ∧ (f = 102 ∨ f = 70).
Proof.
  assert (Hchar : ∀ c t, (if is_upper c then c + 32 else c) = t →
                         t < 65 ∨ 97 <= t → c = t ∨ (c + 32 = t ∧ 65 <= c)).
  { intros c t. unfold is_upper.
    destruct (65 <=? c) eqn:H1; destruct (c <=? 90) eqn:H2; cbn; intros <- Ht;
      try (by left).
    apply N.leb_le in H1. right. lia. }
  split.
  - intros Hext.
    destruct ext as [|a [|b [|c [|d [|? ?]]]]]; try discriminate Hext.
    change ([(if is_upper a then a + 32 else a); (if is_upper b then b + 32 else b);
             (if is_upper c then c + 32 else c); (if is_upper d then d + 32 else d)]
            = [46; 112; 100; 102]) in Hext.
    injection Hext as Ha Hb Hc Hd.
    apply Hchar in Ha; [|lia]. apply Hchar in Hb; [|lia].
    apply Hchar in Hc; [|lia]. apply Hchar in Hd; [|lia].
    exists b, c, d. split_and!; [f_equal; lia|lia..].
  - intros (p & d & f & -> & Hp & Hd & Hf).
    destruct Hp as [-> | ->], Hd as [-> | ->], Hf as [-> | ->]; reflexivity.
Qed.

(** X10: a sanitized name passes the extension check exactly when it
    is a non-empty stem followed by a dot and the letters p, d, f,
    each of them in either case. *)
Theorem extension_check_case_variants (name : pystr) :
  is_pdf (secure_filename name) = true ↔
  ∃ stem p d f,
    secure_filename name = stem ++ [46; p; d; f] ∧ stem ≠ [] ∧
    (p = 112 ∨ p = 80) ∧ (d = 100 ∨ d = 68) ∧ (f = 102 ∨ f = 70).
Proof.
  rewrite extension_check_any_case. split.
  - intros (stem & ext & Hname & (p & d & f & -> & Hcase)%lower_is_pdf_extension).
    exists stem, p, d, f. split_and!; try done; try apply Hcase.
    intros ->. by apply secure_filename_no_leading_dot in Hname.
  - intros (stem & p & d & f & Hname & _ & Hcase).
    exists stem, [46; p; d; f]. split; [done|].
    apply lower_is_pdf_extension. by exists p, d, f.
Qed.

Lemma is_safe_not_space c : is_safe c = true → isspace c = false.
Proof.
  unfold is_safe, isspace.
  rewrite !orb_true_iff, !andb_true_iff, !bool_decide_eq_true, !N.leb_le.
  intros Hc. apply orb_false_iff. rewrite !andb_false_iff, !N.leb_gt. lia.
Qed.

Lemma is_safe_not_slash c : is_safe c = true → c ≠ 47.
Proof.
  unfold is_safe.
  rewrite !orb_true_iff, !andb_true_iff, !bool_decide_eq_true, !N.leb_le. lia.
Qed.

Lemma nfkd_ascii_id (s : pystr) :
  (∀ c, c ∈ s → is_ascii c = true) → nfkd_ascii s = s.
Proof.
  unfold nfkd_ascii. induction s as [|c s IH]; intros Hs; [done|].
  cbn. rewrite (Hs c) by left. cbn. f_equal. apply IH.
  intros d Hd. apply Hs. by right.
Qed.

Lemma replace_id old new (s : pystr) :
  (∀ c, c ∈ s → c ≠ old) → replace old new s = s.
Proof.
  unfold replace. induction s as [|c s IH]; intros Hs; [done|].
  cbn. rewrite bool_decide_eq_false_2 by (apply Hs; left).
  f_equal. apply IH. intros d Hd. apply Hs. by right.
Qed.

Lemma split_from_no_space (word s : pystr) :
  (∀ c, c ∈ s → isspace c = false) →
  split_from word s = match word ++ s with [] => [] | _ => [word ++ s] end.
Proof.
  revert word. induction s as [|c s IH]; intros word Hs; cbn.
  - rewrite app_nil_r. by destruct word.
  - rewrite (Hs c) by left. rewrite IH by (intros d Hd; apply Hs; by right).
    by rewrite <- app_assoc.
Qed.

Lemma filter_safe_id (s : pystr) :
  (∀ c, c ∈ s → is_safe c = true) → filter (λ c, is_safe c = true) s = s.
Proof.
  induction s as [|c s IH]; intros Hs; [done|].
  unfold pystr in *. rewrite filter_cons, decide_True by (apply Hs; left).
  f_equal. apply IH. intros d Hd. apply Hs. by right.
Qed.

Lemma lstrip_id chars (s : pystr) :
  (∀ c, head s = Some c → c ∉ chars) → lstrip chars s = s.
Proof.
  destruct s as [|d s]; cbn; [done|]. intros Hd.
  by rewrite bool_decide_eq_false_2 by by apply Hd.
Qed.

Lemma lstrip_idempotent chars (s : pystr) :
  lstrip chars (lstrip chars s) = lstrip chars s.
Proof. apply lstrip_id. intros c. apply lstrip_head. Qed.

Lemma strip_idempotent chars (s : pystr) :
  strip chars (strip chars s) = strip chars s.
Proof.
  unfold strip.
  assert (Hl : lstrip chars (rstrip chars (lstrip chars s))
               = rstrip chars (lstrip chars s)).
  { apply lstrip_id. intros c Hc.
    destruct (rstrip_prefix chars (lstrip chars s)) as [k Hk].
    apply (lstrip_head chars s). rewrite Hk.
    by destruct (rstrip chars (lstrip chars s)). }
  rewrite Hl. unfold rstrip.
  by rewrite reverse_involutive, lstrip_idempotent.
Qed.

(** X11: sanitizing is idempotent: a name that is already sanitized is
    the name the handler works with. *)
Theorem secure_filename_idempotent (name : pystr) :
  secure_filename (secure_filename name) = secure_filename name.
Proof.
  pose proof (secure_filename_safe name) as Hsafe.
  unfold secure_filename at 1.
  rewrite nfkd_ascii_id
    by (intros c Hc; apply N.ltb_lt, is_safe_ascii, Hsafe, Hc).
  rewrite replace_id by (intros c Hc; apply is_safe_not_slash, Hsafe, Hc).
  unfold split.
  rewrite split_from_no_space by (intros c Hc; apply is_safe_not_space, Hsafe, Hc).
  cbn [app].
  destruct (secure_filename name) as [|c t] eqn:E; [done|].
  cbn [join]. rewrite filter_safe_id by done.
  rewrite <- E. unfold secure_filename. apply strip_idempotent.
Qed.

(** A sanitized name that passes the extension check is fit for the
    services. *)
Lemma sanitized_pdf_name_safe (name : pystr) :
  is_pdf (secure_filename name) = true → safe_pdf_name (secure_filename name).
Proof.
  intros Hpdf. split_and!; [apply secure_filename_safe|done| |].
  - destruct (secure_filename name) as [|c t] eqn:E; [done|].
    cbn. intros [= ->]. by apply (secure_filename_no_leading_dot name t).
  - unfold is_pdf in Hpdf. apply endswith_suffix in Hpdf as [k Hk].
    rewrite <- length_lower, Hk, length_app.
    change (length (py ".pdf")) with 4%nat.
    destruct k; [|cbn; lia].
    by apply secure_filename_not_bare_extension in Hk.
Qed.

Example secure_filename_keeps_case :
  secure_filename (py "RESUME.PDF") = py "RESUME.PDF".
Proof. by vm_compute. Qed.

Example secure_filename_strips_path :
  secure_filename (py "../../etc/my resume.pdf") = py "etc_my_resume.pdf".
Proof. by vm_compute. Qed.

Example secure_filename_drops_unsafe :
  secure_filename (py " c:\\docs\\cv (final).pdf ") = py "cdocscv_final.pdf".
Proof. by vm_compute. Qed.

End Strings.

(** With a database that decomposes U+00E9 into [e] and the combining
    acute accent, "résumé.pdf" becomes "resume.pdf". *)
Example secure_filename_folds_accents :
  secure_filename (U := λ c, if c =? 233 then [101; 769] else [])
    [114; 233; 115; 117; 109; 233; 46; 112; 100; 102] = py "resume.pdf".
Proof. by vm_compute. Qed.

(** ** Properties *)

Section Properties.

Context {U : UnicodeData} {S : Services}.

Ltac view_steps :=
  unfold analyze_resume_and_jd_flask, read_root, run, when, abort, return_,
    raise, time, getitem, read, call, try_except, mbind, mret, M_bind, M_ret;
  cbn.

Lemma serve_analyze (request : Request) (w : World) :
  method request = "POST" → path request = "/analyze/" →
  serve request w = Some (run (analyze_resume_and_jd_flask request) w).
Proof.
  intros Hm Hp. unfold serve, route. rewrite Hm, Hp. reflexivity.
Qed.

Lemma truthy_Some (msg : pystr) : msg ≠ [] → truthy (Some msg) = true.
Proof. destruct msg; done. Qed.

(** Rewriting with the facts of a validated request. *)
Ltac use_validation Hv :=
  let Hn := fresh "Hn" in
  pose proof (pv_names _ _ _ _ _ Hv) as Hn;
  destruct Hv as [_ Hrr Hjr];
  destruct Hn as [Hm Hp Hready Hrf Hjf Hrname Hjname Hrpdf Hjpdf];
  unfold is_pdf, sanitized in *;
  rewrite ?Hready, ?Hrf, ?Hjf; cbn;
  rewrite ?Hrname, ?Hjname; cbn;
  rewrite ?Hrpdf, ?Hjpdf; cbn;
  rewrite ?Hrr, ?Hjr; cbn.

Lemma run_pipeline_raises request rf jf rb jb w e cs w' :
  passes_validation request rf jf rb jb →
  pipeline_raises rb (sanitized rf) jb (sanitized jf) (time_time w).2 e cs w' →
  run (analyze_resume_and_jd_flask request) w
    = (pipeline_error e, {| world := w'; calls := cs |}).
Proof.
  intros Hv Hraise. view_steps.
  destruct (time_time w) as [t0 w0]. cbn in *.
  use_validation Hv.
  unfold pipeline_error, is_ValueError, is_Exception.
  destruct Hraise as [w' E1 | d1 w1 w' E1 E2 | d1 w1 d2 w2 w' E1 E2 E3
                     | d1 w1 d2 w2 a w3 w' E1 E2 E3 E4];
    rewrite E1; cbn; rewrite ?E2; cbn; rewrite ?E3; cbn; rewrite ?E4; cbn;
    destruct e as [[] msg]; reflexivity.
Qed.

Lemma run_pipeline_returns request rf jf rb jb w a s cs w' :
  passes_validation request rf jf rb jb →
  pipeline_returns rb (sanitized rf) jb (sanitized jf) (time_time w).2 a s cs w' →
  run (analyze_resume_and_jd_flask request) w
    = (Responded
         (JsonResponse
            (model_dump
               {| resume_analysis := a;
                  similarity_results := s;
                  processing_time_seconds := ((time_time w').1 - (time_time w).1)%float |})
            200),
       {| world := (time_time w').2; calls := cs |}).
Proof.
  intros Hv Hret. view_steps.
  destruct (time_time w) as [t0 w0]. cbn in *.
  use_validation Hv.
  destruct Hret as [d1 w1 d2 w2 w3 w' E1 E2 E3 E4].
  rewrite E1; cbn; rewrite E2; cbn; rewrite E3; cbn; rewrite E4; cbn.
  destruct (time_time w') as [t1 w5]. reflexivity.
Qed.

(** The pipeline either raises at its first failing call or returns. *)
Lemma pipeline_total rb rn jb jn w :
  (∃ e cs w', pipeline_raises rb rn jb jn w e cs w') ∨
  (∃ a s cs w', pipeline_returns rb rn jb jn w a s cs w').
Proof.
  destruct (process_pdf_bytes rb rn w) as [[e|d1] w1] eqn:E1.
  { left. eexists _, _, _. by apply raises_parse_resume. }
  destruct (process_pdf_bytes jb jn w1) as [[e|d2] w2] eqn:E2.
  { left. eexists _, _, _. by eapply raises_parse_jd. }
  destruct (perform_resume_analysis d1 w2) as [[e|a] w3] eqn:E3.
  { left. eexists _, _, _. by eapply raises_analyze. }
  destruct (calculate_resume_jd_similarity d1 d2 w3) as [[e|s] w4] eqn:E4.
  { left. eexists _, _, _. by eapply raises_compare. }
  right. eexists _, _, _, _. by eapply returns_all.
Qed.

Lemma run_read_raises request rf jf w e :
  passes_filename_validation request rf jf →
  read_raises rf jf e →
  run (analyze_resume_and_jd_flask request) w
    = (read_error e, {| world := (time_time w).2; calls := [] |}).
Proof.
  intros [Hm Hp Hready Hrf Hjf Hrname Hjname Hrpdf Hjpdf] Hread.
  unfold is_pdf, sanitized in *. view_steps.
  destruct (time_time w) as [t0 w0]. cbn.
  rewrite Hready, Hrf, Hjf. cbn. rewrite Hrname, Hjname. cbn.
  rewrite Hrpdf, Hjpdf. cbn. unfold read_error.
  destruct Hread as [E | [[rb E1] E]].
  - rewrite E. cbn. by destruct (is_Exception e).
  - rewrite E1. cbn. rewrite E. cbn. by destruct (is_Exception e).
Qed.

(** The two reads either raise or give the bytes of both files. *)
Lemma read_total rf jf :
  (∃ e, read_raises rf jf e) ∨
  (∃ rb jb, stream rf = inr rb ∧ stream jf = inr jb).
Proof.
  unfold read_raises.
  destruct (stream rf) as [e|rb] eqn:E1; [by eauto|].
  destruct (stream jf) as [e|jb] eqn:E2; [|by eauto].
  left. exists e. right. eauto.
Qed.

(** Every run of the handler past the extension check is of one of
    three kinds. *)
Lemma run_validated_cases request rf jf w :
  passes_filename_validation request rf jf →
  let r := run (analyze_resume_and_jd_flask request) w in
  (∃ e, read_raises rf jf e ∧
        r = (read_error e, {| world := (time_time w).2; calls := [] |})) ∨
  (∃ rb jb e cs w',
      passes_validation request rf jf rb jb ∧
      pipeline_raises rb (sanitized rf) jb (sanitized jf) (time_time w).2 e cs w' ∧
      r = (pipeline_error e, {| world := w'; calls := cs |})) ∨
  (∃ rb jb a s cs w' body,
      passes_validation request rf jf rb jb ∧
      pipeline_returns rb (sanitized rf) jb (sanitized jf) (time_time w).2 a s cs w' ∧
      r = (Responded (JsonResponse body 200),
           {| world := (time_time w').2; calls := cs |})).
Proof.
  intros Hn r. subst r.
  destruct (read_total rf jf) as [[e He] | (rb & jb & E1 & E2)].
  { left. exists e. split; [done|]. by apply (run_read_raises _ rf jf). }
  right.
  assert (Hv : passes_validation request rf jf rb jb) by by constructor.
  destruct (pipeline_total rb (sanitized rf) jb (sanitized jf) (time_time w).2)
    as [(e & cs & w' & Hr) | (a & s & cs & w' & Hr)].
  - left. exists rb, jb, e, cs, w'. split_and!; [done..|].
    by apply (run_pipeline_raises _ rf jf rb jb).
  - right. eexists rb, jb, a, s, cs, w', _. split_and!; [done..|].
    by apply (run_pipeline_returns _ rf jf rb jb).
Qed.

Lemma pipeline_error_no_result e : carries_no_result (pipeline_error e).
Proof.
  unfold pipeline_error.
  destruct (exn_class_of e); cbn; [| |done]; (split; [done|]);
    intros k v [[_ <-] | [_ [_ <-]%lookup_singleton_Some]]%lookup_insert_Some;
    eauto.
Qed.

Lemma failed_to_read_is_not_invalid_type (msg : pystr) :
  py "Failed to read file content: " ++ msg ≠ invalid_file_type.
Proof.
  intros Heq. apply (f_equal head) in Heq. vm_compute in Heq. discriminate.
Qed.

Lemma serve_refused_filename request rf jf w :
  method request = "POST" → path request = "/analyze/" →
  truthy initialization_error = false →
  files request !! "resume_file" = Some rf →
  files request !! "jd_file" = Some jf →
  truthy (filename rf) = false ∨ truthy (filename jf) = false →
  serve request w = refused 400 (py "Uploaded files must have filenames.") w.
Proof.
  intros Hm Hp Hready Hrf Hjf Hname. rewrite serve_analyze by done.
  unfold refused. view_steps. destruct (time_time w) as [t0 w0]. cbn.
  rewrite Hready, Hrf, Hjf. cbn.
  destruct Hname as [-> | ->]; cbn; [done|].
  by destruct (truthy (filename rf)).
Qed.

Lemma serve_refused_extension request rf jf w :
  method request = "POST" → path request = "/analyze/" →
  truthy initialization_error = false →
  files request !! "resume_file" = Some rf →
  files request !! "jd_file" = Some jf →
  truthy (filename rf) = true → truthy (filename jf) = true →
  is_pdf (sanitized rf) = false ∨ is_pdf (sanitized jf) = false →
  serve request w = refused 400 invalid_file_type w.
Proof.
  intros Hm Hp Hready Hrf Hjf Hrname Hjname Hext. rewrite serve_analyze by done.
  unfold refused, is_pdf, sanitized in *. view_steps.
  destruct (time_time w) as [t0 w0]. cbn.
  rewrite Hready, Hrf, Hjf. cbn. rewrite Hrname, Hjname. cbn.
  destruct Hext as [-> | ->]; cbn; [done|].
  by destruct (endswith _ _).
Qed.

Lemma validated_accepted_as_pdf request rf jf w :
  passes_filename_validation request rf jf → accepted_as_pdf request w.
Proof.
  intros Hn st. rewrite serve_analyze by apply Hn.
  destruct (run_validated_cases request rf jf w Hn)
    as [(e & _ & ->) | [(rb & jb & e & cs & w' & _ & _ & ->)
                       | (rb & jb & a & s & cs & w' & body & _ & _ & ->)]];
    [| |done].
  - unfold read_error. destruct (is_Exception e); [|done].
    intros Heq.
    apply (f_equal (λ r, match r with
                         | Some (Responded (ErrorResponse _ d), _) => d
                         | _ => []
                         end)) in Heq.
    exact (failed_to_read_is_not_invalid_type _ Heq).
  - unfold pipeline_error. by destruct (exn_class_of e).
Qed.

(** *** The readiness latch *)

(** C1: a POST to /analyze/ made while the initialization error is
    non-empty is answered 503, with a description that carries the
    captured error, whatever the fields, file names and contents of
    the request; no service is called and only the clock is read. *)
Theorem initialization_failure_gives_503 (request : Request) (w : World) (msg : pystr) :
  method request = "POST" → path request = "/analyze/" →
  initialization_error = Some msg → msg ≠ [] →
  serve request w =
    refused 503
      (py "API service unavailable due to initialization failure: " ++ msg) w.
Proof.
  intros Hm Hp Hinit Hmsg. rewrite serve_analyze by done.
  unfold refused. view_steps. destruct (time_time w) as [t0 w1]. cbn.
  rewrite Hinit, truthy_Some by done. reflexivity.
Qed.

(** *** The error mapping of the pipeline *)

(** C2: on a request that passes validation, a [ValueError] raised by
    any of the four calls of the pipeline is answered 422, with the
    body [{"error": "Processing Error", "detail": m}], [m] being the
    message of the exception. *)
Theorem processing_error_gives_422 request rf jf rb jb (w : World) e cs w' :
  passes_validation request rf jf rb jb →
  pipeline_raises rb (sanitized rf) jb (sanitized jf) (time_time w).2 e cs w' →
  exn_class_of e = ValueError →
  serve request w =
    Some (Responded
            (JsonResponse
               {[ "error" := JString (py "Processing Error");
                  "detail" := JString (exn_str e) ]} 422),
          {| world := w'; calls := cs |}).
Proof.
  intros Hv Hraise Hclass.
  rewrite serve_analyze by apply Hv.
  rewrite (run_pipeline_raises _ _ _ _ _ _ _ _ _ Hv Hraise).
  unfold pipeline_error. rewrite Hclass. reflexivity.
Qed.

(** C3, as amended: on a request that passes validation, an exception
    raised by a call of the pipeline that is an instance of
    [Exception] but not of [ValueError] is answered 500, with the body
    [{"error": "Internal Server Error", "detail": m}]. *)
Theorem unexpected_error_gives_500 request rf jf rb jb (w : World) e cs w' :
  passes_validation request rf jf rb jb →
  pipeline_raises rb (sanitized rf) jb (sanitized jf) (time_time w).2 e cs w' →
  exn_class_of e = OtherException →
  serve request w =
    Some (Responded
            (JsonResponse
               {[ "error" := JString (py "Internal Server Error");
                  "detail" := JString (exn_str e) ]} 500),
          {| world := w'; calls := cs |}).
Proof.
  intros Hv Hraise Hclass.
  rewrite serve_analyze by apply Hv.
  rewrite (run_pipeline_raises _ _ _ _ _ _ _ _ _ Hv Hraise).
  unfold pipeline_error. rewrite Hclass. reflexivity.
Qed.

(** *** Request validation *)

(** C4: with an empty initialization error, a POST to /analyze/ that
    lacks [resume_file] or [jd_file] is answered 400; the description
    names each field that is missing, and no service is called. *)
Theorem missing_field_gives_400 (request : Request) (w : World) :
  method request = "POST" → path request = "/analyze/" →
  truthy initialization_error = false →
  files request !! "resume_file" = None ∨ files request !! "jd_file" = None →
  ∃ description,
    serve request w = refused 400 description w ∧
    ∀ field, field ∈ ["resume_file"; "jd_file"] →
             files request !! field = None →
             contains (py field) description = true.
Proof.
  intros Hm Hp Hready Hmissing.
  exists (py "Missing 'resume_file' or 'jd_file' in the request."). split.
  - rewrite serve_analyze by done.
    unfold refused. view_steps. destruct (time_time w) as [t0 w1]. cbn.
    rewrite Hready. cbn.
    destruct Hmissing as [-> | ->]; cbn; [reflexivity|].
    by destruct (files request !! "resume_file").
  - intros field Hfield _.
    apply elem_of_cons in Hfield as [-> | Hfield]; [by vm_compute|].
    apply elem_of_cons in Hfield as [-> | Hfield]; [by vm_compute|].
    by apply elem_of_nil in Hfield.
Qed.

(** C5: on a POST to /analyze/ with both fields, a file without a
    file name gives 400; otherwise the names are sanitized and the
    request is answered 400, as an invalid file type, unless both
    sanitized names end in ".pdf" whatever the case of the letters.
    RESUME.PDF passes this check, resume.docx does not. *)
Theorem filename_and_extension_checks request rf jf (w : World) :
  method request = "POST" → path request = "/analyze/" →
  truthy initialization_error = false →
  files request !! "resume_file" = Some rf →
  files request !! "jd_file" = Some jf →
  (truthy (filename rf) = false ∨ truthy (filename jf) = false →
     serve request w = refused 400 (py "Uploaded files must have filenames.") w) ∧
  (truthy (filename rf) = true → truthy (filename jf) = true →
     (is_pdf (sanitized rf) = false ∨ is_pdf (sanitized jf) = false →
        serve request w
          = refused 400 (py "Invalid file type. Please upload PDF files only.") w) ∧
     (is_pdf (sanitized rf) = true → is_pdf (sanitized jf) = true →
        accepted_as_pdf request w) ∧
     (filename rf = Some (py "RESUME.PDF") → is_pdf (sanitized jf) = true →
        accepted_as_pdf request w) ∧
     (filename rf = Some (py "resume.docx") →
        serve request w
          = refused 400 (py "Invalid file type. Please upload PDF files only.") w)).
Proof.
  intros Hm Hp Hready Hrf Hjf. split.
  { by apply serve_refused_filename. }
  intros Hrname Hjname.
  assert (Hrefuse : is_pdf (sanitized rf) = false ∨ is_pdf (sanitized jf) = false →
                    serve request w = refused 400 invalid_file_type w)
    by by apply serve_refused_extension.
  assert (Haccept : is_pdf (sanitized rf) = true → is_pdf (sanitized jf) = true →
                    accepted_as_pdf request w).
  { intros Hrpdf Hjpdf. apply (validated_accepted_as_pdf request rf jf).
    by constructor. }
  split_and!; [done..| |].
  - intros Hname. apply Haccept.
    unfold sanitized. rewrite Hname. by vm_compute.
  - intros Hname. apply Hrefuse. left.
    unfold sanitized. rewrite Hname. by vm_compute.
Qed.

(** C9: the extension check and the names given to ParsePdf are the
    sanitized names, not the names of the upload.  A name can end in
    ".pdf" while its sanitized form does not: ".pdf" itself becomes
    "pdf", and a request with that name is answered 400. *)
Theorem sanitized_names_are_used request rf jf (w : World) :
  method request = "POST" → path request = "/analyze/" →
  truthy initialization_error = false →
  files request !! "resume_file" = Some rf →
  files request !! "jd_file" = Some jf →
  truthy (filename rf) = true → truthy (filename jf) = true →
  (is_pdf (sanitized rf) && is_pdf (sanitized jf) = false →
     serve request w = refused 400 invalid_file_type w) ∧
  (is_pdf (sanitized rf) && is_pdf (sanitized jf) = true →
     ∀ o st, serve request w = Some (o, st) →
       ∀ (i : nat) b name, calls st !! i = Some (ParsePdf b name) →
         (i = 0%nat ∧ name = sanitized rf ∧ stream rf = inr b) ∨
         (i = 1%nat ∧ name = sanitized jf ∧ stream jf = inr b)) ∧
  (filename rf = Some (py ".pdf") →
     endswith (lower (str_of (filename rf))) (py ".pdf") = true ∧
     sanitized rf = py "pdf" ∧
     is_pdf (sanitized rf) = false ∧
     serve request w = refused 400 invalid_file_type w).
Proof.
  intros Hm Hp Hready Hrf Hjf Hrname Hjname.
  assert (Hrefuse : is_pdf (sanitized rf) = false ∨ is_pdf (sanitized jf) = false →
                    serve request w = refused 400 invalid_file_type w)
    by by apply serve_refused_extension.
  split_and!.
  - intros Hext%andb_false_iff. by apply Hrefuse.
  - intros [Hrpdf Hjpdf]%andb_true_iff o st.
    assert (Hn : passes_filename_validation request rf jf) by by constructor.
    rewrite serve_analyze by done.
    destruct (run_validated_cases request rf jf w Hn)
      as [(e & _ & ->) | [(rb & jb & e & cs & w' & Hv & Hr & ->)
                         | (rb & jb & a & s & cs & w' & body & Hv & Hr & ->)]];
      intros [= <- <-] i b name Hcall; cbn in Hcall.
    + by rewrite lookup_nil in Hcall.
    + destruct Hv as [_ Hrr Hjr].
      destruct Hr; destruct i as [|[|[|[|i]]]]; simplify_eq/=; eauto.
    + destruct Hv as [_ Hrr Hjr].
      destruct Hr; destruct i as [|[|[|[|i]]]]; simplify_eq/=; eauto.
  - intros Hname.
    assert (Hs : sanitized rf = py "pdf")
      by (unfold sanitized; rewrite Hname; by vm_compute).
    assert (Hno : is_pdf (sanitized rf) = false) by (rewrite Hs; by vm_compute).
    split_and!; [|done|done|by apply Hrefuse; left].
    rewrite Hname. by vm_compute.
Qed.

(** C10, as amended: on a request that passes the checks on the
    names, an instance of [Exception] raised by [read()] on either
    file, a [ValueError] included, is answered 400 with the message of
    the exception, and no service is called; the same [ValueError]
    raised in the pipeline is answered 422. *)
Theorem read_failure_gives_400 request rf jf (w : World) e :
  passes_filename_validation request rf jf →
  read_raises rf jf e →
  is_Exception e = true →
  serve request w =
    refused 400 (py "Failed to read file content: " ++ exn_str e ++ py ".") w ∧
  (exn_class_of e = ValueError →
     ∀ request' rf' jf' rb jb (w0 : World) cs w',
       passes_validation request' rf' jf' rb jb →
       pipeline_raises rb (sanitized rf') jb (sanitized jf') (time_time w0).2 e cs w' →
       ∃ body,
         serve request' w0
           = Some (Responded (JsonResponse body 422), {| world := w'; calls := cs |})).
Proof.
  intros Hn Hread Hexc. split.
  - rewrite serve_analyze by apply Hn.
    rewrite (run_read_raises request rf jf w e Hn Hread).
    unfold read_error, refused. by rewrite Hexc.
  - intros Hclass request' rf' jf' rb jb w0 cs w' Hv Hraise.
    rewrite serve_analyze by apply Hv.
    rewrite (run_pipeline_raises _ _ _ _ _ _ _ _ _ Hv Hraise).
    unfold pipeline_error. rewrite Hclass. eauto.
Qed.

(** *** The pipeline *)

(** C6: on a request that passes validation the services are called
    one after the other, each in the world the call before left:
    ParsePdf on the resume, ParsePdf on the job description, Analyze,
    CompareSimilarity.  The first call to raise ends the request: the
    log stops at that call and the outcome carries no result.
    Otherwise the four calls are made and the answer is a 200. *)
Theorem pipeline_is_sequential request rf jf rb jb (w : World) :
  passes_validation request rf jf rb jb →
  ∃ o st,
    serve request w = Some (o, st) ∧
    ((∃ e, pipeline_raises rb (sanitized rf) jb (sanitized jf) (time_time w).2
             e (calls st) (world st) ∧
           carries_no_result o) ∨
     (∃ a s w', pipeline_returns rb (sanitized rf) jb (sanitized jf) (time_time w).2
                  a s (calls st) w' ∧
                world st = (time_time w').2 ∧
                ∃ body, o = Responded (JsonResponse body 200))).
Proof.
  intros Hv. rewrite serve_analyze by apply Hv.
  destruct (pipeline_total rb (sanitized rf) jb (sanitized jf) (time_time w).2)
    as [(e & cs & w' & Hr) | (a & s & cs & w' & Hr)].
  - rewrite (run_pipeline_raises _ _ _ _ _ _ _ _ _ Hv Hr).
    eexists _, _. split; [done|]. left. exists e. split; [done|].
    apply pipeline_error_no_result.
  - rewrite (run_pipeline_returns _ _ _ _ _ _ _ _ _ _ Hv Hr).
    eexists _, _. split; [done|]. right. exists a, s, w'. eauto.
Qed.


(** *** The runs of the handler, all of them *)

Lemma serve_refused_ready request w :
  method request = "POST" → path request = "/analyze/" →
  truthy initialization_error = true →
  serve request w =
    refused 503
      (py "API service unavailable due to initialization failure: "
         ++ str_of initialization_error) w.
Proof.
  intros Hm Hp Hinit. rewrite serve_analyze by done.
  unfold refused. view_steps. destruct (time_time w) as [t0 w1]. cbn.
  by rewrite Hinit.
Qed.

Lemma serve_refused_missing request w :
  method request = "POST" → path request = "/analyze/" →
  truthy initialization_error = false →
  files request !! "resume_file" = None ∨ files request !! "jd_file" = None →
  serve request w =
    refused 400 (py "Missing 'resume_file' or 'jd_file' in the request.") w.
Proof.
  intros Hm Hp Hready Hmissing. rewrite serve_analyze by done.
  unfold refused. view_steps. destruct (time_time w) as [t0 w1]. cbn.
  rewrite Hready. cbn.
  destruct Hmissing as [-> | ->]; cbn; [reflexivity|].
  by destruct (files request !! "resume_file").
Qed.

(** Every POST to /analyze/ is one of the runs of [analyzed]. *)
Lemma serve_analyzed request w :
  method request = "POST" → path request = "/analyze/" →
  ∃ o st, serve request w = Some (o, st) ∧ analyzed request w o st.
Proof.
  intros Hm Hp.
  destruct (truthy initialization_error) eqn:Hready.
  { eexists _, _. split; [by apply serve_refused_ready|]. by constructor. }
  destruct (files request !! "resume_file") as [rf|] eqn:Hrf; last first.
  { eexists _, _. split; [apply serve_refused_missing; eauto|].
    apply analyzed_missing; eauto. }
  destruct (files request !! "jd_file") as [jf|] eqn:Hjf; last first.
  { eexists _, _. split; [apply serve_refused_missing; eauto|].
    apply analyzed_missing; eauto. }
  destruct (truthy (filename rf)) eqn:Hrname; last first.
  { eexists _, _. split; [apply (serve_refused_filename _ rf jf); eauto|].
    apply (analyzed_unnamed _ _ rf jf); eauto. }
  destruct (truthy (filename jf)) eqn:Hjname; last first.
  { eexists _, _. split; [apply (serve_refused_filename _ rf jf); eauto|].
    apply (analyzed_unnamed _ _ rf jf); eauto. }
  destruct (is_pdf (sanitized rf)) eqn:Hrpdf; last first.
  { eexists _, _. split; [apply (serve_refused_extension _ rf jf); eauto|].
    apply (analyzed_not_pdf _ _ rf jf); eauto. }
  destruct (is_pdf (sanitized jf)) eqn:Hjpdf; last first.
  { eexists _, _. split; [apply (serve_refused_extension _ rf jf); eauto|].
    apply (analyzed_not_pdf _ _ rf jf); eauto. }
  assert (Hn : passes_filename_validation request rf jf) by by constructor.
  rewrite serve_analyze by done.
  destruct (read_total rf jf) as [[e He] | (rb & jb & E1 & E2)].
  { eexists _, _. split; [by rewrite (run_read_raises _ rf jf w e)|].
    by apply (analyzed_unread _ _ rf jf). }
  assert (Hv : passes_validation request rf jf rb jb) by by constructor.
  destruct (pipeline_total rb (sanitized rf) jb (sanitized jf) (time_time w).2)
    as [(e & cs & w' & Hr) | (a & s & cs & w' & Hr)].
  - eexists _, _. split; [by rewrite (run_pipeline_raises _ rf jf rb jb w e cs w')|].
    by apply (analyzed_failed _ _ rf jf rb jb).
  - eexists _, _.
    split; [by rewrite (run_pipeline_returns _ rf jf rb jb w a s cs w')|].
    by apply (analyzed_succeeded _ _ rf jf rb jb).
Qed.

Lemma serve_is_analyzed request w o st :
  method request = "POST" → path request = "/analyze/" →
  serve request w = Some (o, st) → analyzed request w o st.
Proof.
  intros Hm Hp Hserve.
  destruct (serve_analyzed request w Hm Hp) as (o' & st' & Hserve' & Hrun).
  rewrite Hserve in Hserve'. by simplify_eq.
Qed.

(** *** The liveness route *)

(** C8: a GET to / is answered 200 with the one fixed body
    [{"status": "<service> is running!"}], whatever the headers, the
    body and the files of the request and whatever the state of the
    services; the world is left as it was and no service is called. *)
Theorem read_root_fixed_response (request : Request) (w : World) :
  method request = "GET" → path request = "/" →
  serve request w =
    Some (Responded
            (JsonResponse
               {[ "status" := JString (py "AI Resume Analyzer Flask API" ++ py " is running!") ]}
               200),
          {| world := w; calls := [] |}).
Proof.
  intros Hm Hp. unfold serve, route. rewrite Hm, Hp. reflexivity.
Qed.

(** *** What the answers of /analyze/ tell *)

Lemma error_response_inj status1 description1 status2 description2 :
  Responded (ErrorResponse status1 description1)
    = Responded (ErrorResponse status2 description2) →
  status1 = status2 ∧ description1 = description2.
Proof. by intros [= -> ->]. Qed.

Ltac runs H :=
  apply serve_is_analyzed in H; [|done..];
  inversion H as [ Hinit
                 | Hready Hmissing
                 | rf jf Hready Hrf Hjf Hname
                 | rf jf Hready Hrf Hjf Hrname Hjname Hext
                 | rf jf e Hn Hread
                 | rf jf rb jb e cs w' Hv Hr
                 | rf jf rb jb a s cs w' Hv Hr ];
  subst; clear H;
  unfold read_error, pipeline_error, untouched in *.

(** X1: whatever the request, a POST to /analyze/ is answered with a
    JSON body and status 200, 422 or 500, or with an error page and
    status 400 or 503; the only exceptions to leave the handler are
    those that are not instances of [Exception]. *)
Theorem analyze_status_codes request (w : World) o st :
  method request = "POST" → path request = "/analyze/" →
  serve request w = Some (o, st) →
  match o with
  | Responded (JsonResponse _ status) => status = 200 ∨ status = 422 ∨ status = 500
  | Responded (ErrorResponse status _) => status = 400 ∨ status = 503
  | Unhandled e => is_Exception e = false
  end%Z.
Proof.
  intros Hm Hp Hserve. runs Hserve; eauto.
  - destruct (is_Exception e) eqn:E; eauto.
  - destruct (exn_class_of e) eqn:Hclass; cbn; eauto.
    unfold is_Exception. by rewrite Hclass.
Qed.

(** X2: a JSON error (a JSON body with a status other than 200) is
    only ever the answer to an exception raised by a service on a
    validated request: 422 with "Processing Error" for a [ValueError],
    500 with "Internal Server Error" for another [Exception], and the
    text of that exception as detail. *)
Theorem json_error_origin request (w : World) body status st :
  method request = "POST" → path request = "/analyze/" →
  serve request w = Some (Responded (JsonResponse body status), st) →
  status ≠ 200%Z →
  ∃ rf jf rb jb e,
    passes_validation request rf jf rb jb ∧
    pipeline_raises rb (sanitized rf) jb (sanitized jf) (time_time w).2
      e (calls st) (world st) ∧
    ((status = 422%Z ∧ exn_class_of e = ValueError ∧
      body = {[ "error" := JString (py "Processing Error");
                "detail" := JString (exn_str e) ]}) ∨
     (status = 500%Z ∧ exn_class_of e = OtherException ∧
      body = {[ "error" := JString (py "Internal Server Error");
                "detail" := JString (exn_str e) ]})).
Proof.
  intros Hm Hp Hserve Hstatus. runs Hserve.
  - by destruct (is_Exception e).
  - exists rf, jf, rb, jb, e. split_and!; [done..|].
    destruct (exn_class_of e) eqn:Hclass; simplify_eq; eauto.
  - done.
Qed.

(** X3: a 200 is only ever the answer to a validated request on which
    all four calls returned; its body is the dump of their results. *)
Theorem ok_only_after_full_pipeline request (w : World) o st :
  method request = "POST" → path request = "/analyze/" →
  serve request w = Some (o, st) →
  status_of o = Some 200%Z →
  ∃ rf jf rb jb a s w',
    passes_validation request rf jf rb jb ∧
    pipeline_returns rb (sanitized rf) jb (sanitized jf) (time_time w).2
      a s (calls st) w' ∧
    length (calls st) = 4%nat ∧
    world st = (time_time w').2 ∧
    o = Responded
          (JsonResponse
             {[ "resume_analysis" := JAnalysis a;
                "similarity_results" := JSimilarity s;
                "processing_time_seconds" :=
                  JNumber ((time_time w').1 - (time_time w).1)%float ]}
             200).
Proof.
  intros Hm Hp Hserve Hstatus. runs Hserve; cbn in Hstatus; try done.
  - by destruct (is_Exception e).
  - by destruct (exn_class_of e).
  - exists rf, jf, rb, jb, a, s, w'. split_and!; try done.
    by destruct Hr.
Qed.

(** X4: a POST to /analyze/ is answered 503 exactly when the
    initialization error is a non-empty string; [None] and the empty
    string both let the request through. *)
Theorem service_unavailable_iff request (w : World) o st :
  method request = "POST" → path request = "/analyze/" →
  serve request w = Some (o, st) →
  status_of o = Some 503%Z ↔ truthy initialization_error = true.
Proof.
  intros Hm Hp Hserve. runs Hserve;
    try (destruct Hv as [Hn _ _]);
    try (destruct Hn as [_ _ Hready _ _ _ _ _ _]);
    try destruct (is_Exception e); try destruct (exn_class_of e);
    cbn; split; intros; congruence.
Qed.

(** X5: a service is called only for a request that passed every check
    and whose two files were read; the first call is then ParsePdf on
    the bytes of the resume, and there are at most four calls. *)
Theorem services_called_only_when_validated request (w : World) o st :
  method request = "POST" → path request = "/analyze/" →
  serve request w = Some (o, st) →
  calls st ≠ [] →
  ∃ rf jf rb jb,
    passes_validation request rf jf rb jb ∧
    head (calls st) = Some (ParsePdf rb (sanitized rf)) ∧
    (length (calls st) ≤ 4)%nat.
Proof.
  intros Hm Hp Hserve Hcalls. runs Hserve; cbn in Hcalls; try done.
  - exists rf, jf, rb, jb. split; [done|]. destruct Hr; cbn; split; (done || lia).
  - exists rf, jf, rb, jb. split; [done|]. destruct Hr; cbn; split; (done || lia).
Qed.

(** X6: an exception that is not an instance of [Exception], raised
    by a service on a validated request, is caught by neither [except]
    clause: it leaves the handler, and no response is built. *)
Theorem base_exception_propagates request rf jf rb jb (w : World) e cs w' :
  passes_validation request rf jf rb jb →
  pipeline_raises rb (sanitized rf) jb (sanitized jf) (time_time w).2 e cs w' →
  is_Exception e = false →
  serve request w = Some (Unhandled e, {| world := w'; calls := cs |}).
Proof.
  intros Hv Hraise Hexc. rewrite serve_analyze by apply Hv.
  rewrite (run_pipeline_raises _ _ _ _ _ _ _ _ _ Hv Hraise).
  unfold pipeline_error. unfold is_Exception in Hexc.
  by destruct (exn_class_of e).
Qed.

(** X7: the same for [read()]: an exception that is not an instance of
    [Exception] is not turned into a 400. *)
Theorem base_exception_on_read_propagates request rf jf (w : World) e :
  passes_filename_validation request rf jf →
  read_raises rf jf e →
  is_Exception e = false →
  serve request w = Some (Unhandled e, untouched w).
Proof.
  intros Hn Hread Hexc. rewrite serve_analyze by apply Hn.
  rewrite (run_read_raises request rf jf w e Hn Hread).
  unfold read_error. by rewrite Hexc.
Qed.

(** X8: an error page (the answer of [abort]) always means that no
    service was called and that only the clock was read; a 503 carries
    the initialization error, and a 400 one of four descriptions. *)
Theorem error_pages request (w : World) status description st :
  method request = "POST" → path request = "/analyze/" →
  serve request w = Some (Responded (ErrorResponse status description), st) →
  st = untouched w ∧
  ((status = 503%Z ∧
    description = py "API service unavailable due to initialization failure: "
                    ++ str_of initialization_error) ∨
   (status = 400%Z ∧
    (description = py "Missing 'resume_file' or 'jd_file' in the request." ∨
     description = py "Uploaded files must have filenames." ∨
     description = py "Invalid file type. Please upload PDF files only." ∨
     ∃ e, description = py "Failed to read file content: " ++ exn_str e ++ py "."))).
Proof.
  intros Hm Hp Hserve.
  apply serve_is_analyzed in Hserve; [|done..].
  remember (Responded (ErrorResponse status description)) as o eqn:Ho.
  destruct Hserve as [ | | | | rf jf e Hn Hread | rf jf rb jb e cs w' Hv Hr | ];
    unfold read_error, pipeline_error in Ho;
    try destruct (is_Exception e); try destruct (exn_class_of e);
    try discriminate Ho;
    symmetry in Ho; apply error_response_inj in Ho as [-> ->];
    (split; [done|]); eauto 10.
Qed.

(** X9: only the uploads under [resume_file] and [jd_file] count: two
    requests that agree on them are answered alike, whatever their
    headers, their raw body and the other files they carry. *)
Theorem only_the_two_uploads_matter (r1 r2 : Request) (w : World) :
  method r1 = "POST" → path r1 = "/analyze/" →
  method r2 = "POST" → path r2 = "/analyze/" →
  files r1 !! "resume_file" = files r2 !! "resume_file" →
  files r1 !! "jd_file" = files r2 !! "jd_file" →
  serve r1 w = serve r2 w.
Proof.
  intros Hm1 Hp1 Hm2 Hp2 Hresume Hjd.
  rewrite !serve_analyze by done. f_equal.
  unfold analyze_resume_and_jd_flask, run, getitem.
  by rewrite Hresume, Hjd.
Qed.

(** X12: of the name of an upload the handler uses two things only,
    whether it is empty and its sanitized form: two requests whose
    uploads agree on those and on what [read()] gives are answered
    alike, so names that differ only in what sanitizing removes or
    rewrites are not told apart. *)
Theorem only_sanitized_names_matter (r1 r2 : Request) rf1 jf1 rf2 jf2 (w : World) :
  method r1 = "POST" → path r1 = "/analyze/" →
  method r2 = "POST" → path r2 = "/analyze/" →
  files r1 !! "resume_file" = Some rf1 → files r1 !! "jd_file" = Some jf1 →
  files r2 !! "resume_file" = Some rf2 → files r2 !! "jd_file" = Some jf2 →
  truthy (filename rf1) = truthy (filename rf2) →
  truthy (filename jf1) = truthy (filename jf2) →
  sanitized rf1 = sanitized rf2 → sanitized jf1 = sanitized jf2 →
  stream rf1 = stream rf2 → stream jf1 = stream jf2 →
  serve r1 w = serve r2 w.
Proof.
  intros Hm1 Hp1 Hm2 Hp2 Hrf1 Hjf1 Hrf2 Hjf2 Hrt Hjt Hrs Hjs Hrr Hjr.
  rewrite !serve_analyze by done. f_equal. unfold sanitized in *.
  view_steps. destruct (time_time w) as [t0 w0]. cbn.
  rewrite Hrf1, Hjf1, Hrf2, Hjf2. cbn.
  rewrite Hrt, Hjt, Hrs, Hjs, Hrr, Hjr. reflexivity.
Qed.

(** X13: whatever names the client gave to its uploads, every name
    handed to ParsePdf is made of ASCII letters, digits, [_], [.] and
    [-] only (so it has no path separator), does not start with a dot,
    ends in ".pdf" in some case and has something before it. *)
Theorem parse_pdf_names_are_safe request (w : World) o st b name :
  method request = "POST" → path request = "/analyze/" →
  serve request w = Some (o, st) →
  ParsePdf b name ∈ calls st →
  safe_pdf_name name.
Proof.
  intros Hm Hp Hserve Hcall.
  assert (Hnames : ∀ rf jf rb jb,
             passes_validation request rf jf rb jb →
             name = sanitized rf ∨ name = sanitized jf → safe_pdf_name name).
  { intros rf jf rb jb [[_ _ _ _ _ _ _ Hrpdf Hjpdf] _ _] [-> | ->];
      by apply sanitized_pdf_name_safe. }
  runs Hserve; cbn in Hcall; try (by apply elem_of_nil in Hcall).
  - apply (Hnames rf jf rb jb Hv).
    destruct Hr; rewrite !elem_of_cons, elem_of_nil in Hcall;
      destruct_or!; simplify_eq; eauto.
  - apply (Hnames rf jf rb jb Hv).
    destruct Hr; rewrite !elem_of_cons, elem_of_nil in Hcall;
      destruct_or!; simplify_eq; eauto.
Qed.

End Properties.

(** ** The properties at work on the small services module *)

Section Witnesses.

Local Existing Instance Demo.unicode.

Lemma initialization_failure_gives_503_witness :
  serve (S := Demo.failed) Demo.good [3%float] =
    Some (Responded
            (ErrorResponse 503
               (py "API service unavailable due to initialization failure: GOOGLE_API_KEY is not set")),
          @Build_State Demo.failed [] []).
Proof.
  apply (initialization_failure_gives_503 (S := Demo.failed)
           Demo.good [3%float] (py "GOOGLE_API_KEY is not set"));
    by vm_compute.
Defined.

Lemma processing_error_gives_422_witness :
  serve (S := Demo.ready) Demo.bad_jd [3%float] =
    Some (Responded
            (JsonResponse
               {[ "error" := JString (py "Processing Error");
                  "detail" := JString (py "not a PDF") ]} 422),
          @Build_State Demo.ready []
            [ParsePdf Demo.pdf (py "RESUME.PDF"); ParsePdf [x00] (py "jd.pdf")]).
Proof.
  apply (processing_error_gives_422 (S := Demo.ready)
           Demo.bad_jd Demo.resume Demo.garbage Demo.pdf [x00] [3%float]
           (Exn ValueError (py "not a PDF"))).
  - repeat split; by vm_compute.
  - by eapply raises_parse_jd; vm_compute.
  - reflexivity.
Defined.

Lemma unexpected_error_gives_500_witness :
  serve (S := Demo.ready) Demo.bad_analysis [3%float] =
    Some (Responded
            (JsonResponse
               {[ "error" := JString (py "Internal Server Error");
                  "detail" := JString (py "backend offline") ]} 500),
          @Build_State Demo.ready []
            [ParsePdf [xff] (py "cv.pdf"); ParsePdf Demo.pdf (py "jobs_jd.pdf");
             Analyze (S := Demo.ready) [xff]]).
Proof.
  apply (unexpected_error_gives_500 (S := Demo.ready)
           Demo.bad_analysis Demo.unlucky Demo.jd [xff] Demo.pdf [3%float]
           (Exn OtherException (py "backend offline"))).
  - repeat split; by vm_compute.
  - by eapply raises_analyze; vm_compute.
  - reflexivity.
Defined.

Lemma missing_field_gives_400_witness :
  ∃ description,
    serve (S := Demo.ready) Demo.no_jd [3%float]
      = refused (S := Demo.ready) 400 description [3%float] ∧
    ∀ field, field ∈ ["resume_file"; "jd_file"] →
             files Demo.no_jd !! field = None →
             contains (py field) description = true.
Proof.
  apply (missing_field_gives_400 (S := Demo.ready) Demo.no_jd [3%float]);
    try (by vm_compute).
  right. by vm_compute.
Defined.

Lemma filename_and_extension_checks_witness :
  accepted_as_pdf (S := Demo.ready) Demo.good [3%float].
Proof.
  refine (proj1 (proj2 (proj2 (filename_and_extension_checks (S := Demo.ready)
                                 Demo.good Demo.resume Demo.jd [3%float] _ _ _ _ _)
                              _ _)) _ _);
    by vm_compute.
Defined.

Lemma read_root_fixed_response_witness :
  serve (S := Demo.failed) Demo.get [3%float] =
    Some (Responded
            (JsonResponse
               {[ "status" := JString (py "AI Resume Analyzer Flask API is running!") ]}
               200),
          @Build_State Demo.failed [3%float] []).
Proof.
  apply (read_root_fixed_response (S := Demo.failed) Demo.get [3%float]);
    by vm_compute.
Defined.

Lemma pipeline_is_sequential_witness :
  ∃ o st,
    serve (S := Demo.ready) Demo.bad_jd [3%float] = Some (o, st) ∧
    ((∃ e, pipeline_raises Demo.pdf (sanitized Demo.resume) [x00] (sanitized Demo.garbage)
             (time_time (Services := Demo.ready) [3%float]).2 e (calls st) (world st) ∧
           carries_no_result o) ∨
     (∃ a s w', pipeline_returns Demo.pdf (sanitized Demo.resume) [x00]
                  (sanitized Demo.garbage)
                  (time_time (Services := Demo.ready) [3%float]).2 a s (calls st) w' ∧
                world st = (time_time w').2 ∧
                ∃ body, o = Responded (JsonResponse body 200))).
Proof.
  apply (pipeline_is_sequential (S := Demo.ready)
           Demo.bad_jd Demo.resume Demo.garbage Demo.pdf [x00] [3%float]).
  repeat split; by vm_compute.
Defined.


Lemma sanitized_names_are_used_witness :
  endswith (lower (str_of (filename Demo.dot_pdf))) (py ".pdf") = true ∧
  sanitized Demo.dot_pdf = py "pdf" ∧
  is_pdf (sanitized Demo.dot_pdf) = false ∧
  serve (S := Demo.ready) Demo.hidden [3%float]
    = refused (S := Demo.ready) 400 invalid_file_type [3%float].
Proof.
  refine (proj2 (proj2 (sanitized_names_are_used (S := Demo.ready)
                          Demo.hidden Demo.dot_pdf Demo.jd [3%float] _ _ _ _ _ _ _))
            _);
    by vm_compute.
Defined.

Lemma read_failure_gives_400_witness :
  serve (S := Demo.ready) Demo.bad_read [3%float]
    = refused (S := Demo.ready) 400
        (py "Failed to read file content: I/O operation on closed file.") [3%float] ∧
  ∃ body,
    serve (S := Demo.ready) Demo.bad_resume [3%float]
      = Some (Responded (JsonResponse body 422),
              @Build_State Demo.ready []
                [ParsePdf [x01] (py "cv.pdf"); ParsePdf Demo.pdf (py "jobs_jd.pdf");
                 Analyze (S := Demo.ready) [x01]]).
Proof.
  destruct (read_failure_gives_400 (S := Demo.ready)
              Demo.bad_read Demo.unreadable Demo.jd [3%float] Demo.closed_file)
    as [Hread Hpipeline].
  - repeat split; by vm_compute.
  - left. reflexivity.
  - reflexivity.
  - split; [exact Hread|].
    apply (Hpipeline eq_refl Demo.bad_resume Demo.blank Demo.jd [x01] Demo.pdf [3%float]).
    + repeat split; by vm_compute.
    + by eapply raises_analyze; vm_compute.
Defined.


(** The difference is the rounded one: with the readings 0.1 and 1.0
    (the doubles nearest to them) the body carries the double nearest
    to 0.9, not the exact difference of the two readings. *)
Example processing_time_is_rounded :
  fst <$> serve (S := Demo.ready) Demo.good [0x1.999999999999ap-4%float; 1%float]
    = Some (Responded
              (JsonResponse
                 {[ "resume_analysis" := JAnalysis (S := Demo.ready) 4%nat;
                    "similarity_results" := JSimilarity (S := Demo.ready) 8%nat;
                    "processing_time_seconds" := JNumber 0x1.ccccccccccccdp-1%float ]}
                 200)).
Proof. reflexivity. Qed.

(** C3, as stated, fails for an exception that is not an instance of
    [Exception]: on a validated request CompareSimilarity is
    interrupted, the exception is not a [ValueError], and the handler
    answers nothing, a 500 least of all. *)
Lemma interrupted_pipeline_is_not_answered_500 :
  passes_validation (S := Demo.ready)
    Demo.interrupted Demo.resume Demo.interrupting Demo.pdf [xfe] ∧
  pipeline_raises (S := Demo.ready)
    Demo.pdf (sanitized Demo.resume) [xfe] (sanitized Demo.interrupting)
    (time_time (Services := Demo.ready) [3%float]).2 Demo.interrupt
    [ParsePdf Demo.pdf (py "RESUME.PDF"); ParsePdf [xfe] (py "jd.pdf");
     Analyze (S := Demo.ready) Demo.pdf;
     CompareSimilarity (S := Demo.ready) Demo.pdf [xfe]] [] ∧
  is_ValueError Demo.interrupt = false ∧
  ∀ body st,
    serve (S := Demo.ready) Demo.interrupted [3%float]
      ≠ Some (Responded (JsonResponse body 500), st).
Proof.
  split_and!.
  - repeat split; reflexivity.
  - eapply raises_compare; reflexivity.
  - reflexivity.
  - intros body st.
    assert (Hrun : ∃ st', serve (S := Demo.ready) Demo.interrupted [3%float]
                          = Some (Unhandled Demo.interrupt, st'))
      by (eexists; reflexivity).
    destruct Hrun as [st' ->]. discriminate.
Qed.

(** C10, as stated, fails for an exception that is not an instance of
    [Exception]: on a request that passes the checks on the names,
    [read()] of the job description is interrupted and the handler
    answers nothing, a 400 least of all. *)
Lemma interrupted_read_is_not_answered_400 :
  passes_filename_validation (S := Demo.ready)
    Demo.interrupted_read Demo.resume (Demo.broken "jd.pdf" Demo.interrupt) ∧
  read_raises Demo.resume (Demo.broken "jd.pdf" Demo.interrupt) Demo.interrupt ∧
  ∀ description st,
    serve (S := Demo.ready) Demo.interrupted_read [3%float]
      ≠ Some (Responded (ErrorResponse 400 description), st).
Proof.
  split_and!.
  - repeat split; reflexivity.
  - right. split; [by eexists|reflexivity].
  - intros description st.
    assert (Hrun : ∃ st', serve (S := Demo.ready) Demo.interrupted_read [3%float]
                          = Some (Unhandled Demo.interrupt, st'))
      by (eexists; reflexivity).
    destruct Hrun as [st' ->]. discriminate.
Qed.

End Witnesses.

(** ** The further properties at work *)

Section MoreWitnesses.

Local Existing Instance Demo.unicode.
Local Existing Instance Demo.ready.

Lemma analyze_status_codes_witness :
  ∃ o st,
    serve (S := Demo.ready) Demo.bad_jd [3%float] = Some (o, st) ∧
    match o with
    | Responded (JsonResponse _ status) => status = 200 ∨ status = 422 ∨ status = 500
    | Responded (ErrorResponse status _) => status = 400 ∨ status = 503
    | Unhandled e => is_Exception e = false
    end%Z.
Proof.
  eexists _, _. split; [reflexivity|].
  apply (analyze_status_codes (S := Demo.ready) Demo.bad_jd [3%float] _
           (@Build_State Demo.ready []
              [ParsePdf Demo.pdf (py "RESUME.PDF"); ParsePdf [x00] (py "jd.pdf")]));
    done.
Defined.

Lemma json_error_origin_witness :
  ∃ body status st,
    serve (S := Demo.ready) Demo.bad_jd [3%float]
      = Some (Responded (JsonResponse body status), st) ∧
    status ≠ 200%Z ∧
    ∃ rf jf rb jb e,
      passes_validation Demo.bad_jd rf jf rb jb ∧
      pipeline_raises rb (sanitized rf) jb (sanitized jf)
        (time_time (Services := Demo.ready) [3%float]).2 e (calls st) (world st) ∧
      ((status = 422%Z ∧ exn_class_of e = ValueError ∧
        body = {[ "error" := JString (py "Processing Error");
                  "detail" := JString (exn_str e) ]}) ∨
       (status = 500%Z ∧ exn_class_of e = OtherException ∧
        body = {[ "error" := JString (py "Internal Server Error");
                  "detail" := JString (exn_str e) ]})).
Proof.
  eexists _, _, _. split; [reflexivity|]. split; [done|].
  apply (json_error_origin (S := Demo.ready) Demo.bad_jd [3%float]); done.
Defined.

Lemma ok_only_after_full_pipeline_witness :
  ∃ o st,
    serve (S := Demo.ready) Demo.good [10%float; 12%float] = Some (o, st) ∧
    status_of o = Some 200%Z ∧
    ∃ rf jf rb jb a s w',
      passes_validation Demo.good rf jf rb jb ∧
      pipeline_returns rb (sanitized rf) jb (sanitized jf)
        (time_time (Services := Demo.ready) [10%float; 12%float]).2 a s (calls st) w' ∧
      length (calls st) = 4%nat ∧
      world st = (time_time w').2 ∧
      o = Responded
            (JsonResponse
               {[ "resume_analysis" := JAnalysis a;
                  "similarity_results" := JSimilarity s;
                  "processing_time_seconds" :=
                    JNumber ((time_time w').1
                             - (time_time (Services := Demo.ready) [10%float; 12%float]).1)%float ]}
               200).
Proof.
  eexists _, _. split; [reflexivity|]. split; [done|].
  apply (ok_only_after_full_pipeline (S := Demo.ready) Demo.good [10%float; 12%float]);
    done.
Defined.

Lemma service_unavailable_iff_witness :
  ∃ o st,
    serve (S := Demo.failed) Demo.good [3%float] = Some (o, st) ∧
    (status_of o = Some 503%Z ↔
     truthy (initialization_error (Services := Demo.failed)) = true).
Proof.
  eexists _, _. split; [reflexivity|].
  apply (service_unavailable_iff (S := Demo.failed) Demo.good [3%float] _
           (@Build_State Demo.failed [] []));
    done.
Defined.

Lemma services_called_only_when_validated_witness :
  ∃ o st,
    serve (S := Demo.ready) Demo.bad_jd [3%float] = Some (o, st) ∧
    calls st ≠ [] ∧
    ∃ rf jf rb jb,
      passes_validation Demo.bad_jd rf jf rb jb ∧
      head (calls st) = Some (ParsePdf rb (sanitized rf)) ∧
      (length (calls st) ≤ 4)%nat.
Proof.
  eexists _, _. split; [reflexivity|]. split; [done|].
  eapply (services_called_only_when_validated (S := Demo.ready) Demo.bad_jd [3%float]);
    done.
Defined.

Lemma base_exception_propagates_witness :
  serve (S := Demo.ready) Demo.interrupted [3%float] =
    Some (Unhandled Demo.interrupt,
          @Build_State Demo.ready []
            [ParsePdf Demo.pdf (py "RESUME.PDF"); ParsePdf [xfe] (py "jd.pdf");
             Analyze (S := Demo.ready) Demo.pdf;
             CompareSimilarity (S := Demo.ready) Demo.pdf [xfe]]).
Proof.
  apply (base_exception_propagates (S := Demo.ready)
           Demo.interrupted Demo.resume Demo.interrupting Demo.pdf [xfe] [3%float]
           Demo.interrupt).
  - repeat split; reflexivity.
  - eapply raises_compare; reflexivity.
  - done.
Defined.

Lemma base_exception_on_read_propagates_witness :
  serve (S := Demo.ready) Demo.interrupted_read [3%float] =
    Some (Unhandled Demo.interrupt, untouched (S := Demo.ready) [3%float]).
Proof.
  apply (base_exception_on_read_propagates (S := Demo.ready)
           Demo.interrupted_read Demo.resume
           (Demo.broken "jd.pdf" Demo.interrupt) [3%float] Demo.interrupt).
  - repeat split; reflexivity.
  - right. split; [by eexists|reflexivity].
  - done.
Defined.

Lemma error_pages_witness :
  ∃ status description st,
    serve (S := Demo.ready) Demo.no_jd [3%float]
      = Some (Responded (ErrorResponse status description), st) ∧
    st = untouched [3%float] ∧
    ((status = 503%Z ∧
      description = py "API service unavailable due to initialization failure: "
                      ++ str_of (initialization_error (Services := Demo.ready))) ∨
     (status = 400%Z ∧
      (description = py "Missing 'resume_file' or 'jd_file' in the request." ∨
       description = py "Uploaded files must have filenames." ∨
       description = py "Invalid file type. Please upload PDF files only." ∨
       ∃ e, description = py "Failed to read file content: " ++ exn_str e ++ py "."))).
Proof.
  eexists _, _, _. split; [reflexivity|].
  apply (error_pages (S := Demo.ready) Demo.no_jd [3%float]); done.
Defined.

Lemma only_the_two_uploads_matter_witness :
  serve (S := Demo.ready) Demo.good [10%float; 12%float]
    = serve (S := Demo.ready) Demo.noisy [10%float; 12%float].
Proof.
  apply (only_the_two_uploads_matter (S := Demo.ready) Demo.good Demo.noisy);
    done.
Defined.

Lemma parse_pdf_names_are_safe_witness :
  ∃ o st,
    serve (S := Demo.ready) Demo.good [10%float; 12%float] = Some (o, st) ∧
    ParsePdf Demo.pdf (py "jobs_jd.pdf") ∈ calls st ∧
    safe_pdf_name (py "jobs_jd.pdf").
Proof.
  eexists _, _. split; [reflexivity|].
  assert (Hcall : ParsePdf (S := Demo.ready) Demo.pdf (py "jobs_jd.pdf")
                    ∈ [ParsePdf Demo.pdf (py "RESUME.PDF");
                       ParsePdf Demo.pdf (py "jobs_jd.pdf");
                       Analyze (S := Demo.ready) Demo.pdf;
                       CompareSimilarity (S := Demo.ready) Demo.pdf Demo.pdf])
    by (right; left).
  split; [exact Hcall|].
  eapply (parse_pdf_names_are_safe (S := Demo.ready) Demo.good [10%float; 12%float]);
    [reflexivity..|exact Hcall].
Defined.

Lemma only_sanitized_names_matter_witness :
  serve (S := Demo.ready) Demo.good [10%float; 12%float]
    = serve (S := Demo.ready) Demo.pathful [10%float; 12%float].
Proof.
  apply (only_sanitized_names_matter (S := Demo.ready) Demo.good Demo.pathful
           Demo.resume Demo.jd
           (Demo.upload "./RESUME.PDF" Demo.pdf)
           (Demo.upload "jobs jd.pdf" Demo.pdf));
    reflexivity.
Defined.

End MoreWitnesses.
